(** * Reference-fixture generator of librascal: [scripts/generate_kernel_ref_data.py]

    A shallow embedding of the script in a state-and-exception monad.
    Python values are a small inductive type, dictionaries are association
    lists in insertion order, the external packages (ase, rascal, ubjson,
    argparse) are an interface whose operations are deterministic functions
    that may raise, and the interpreter state holds the two rebound locals
    ([data], [max_angular]), stdout, the log of library calls, [sys.path]
    and the file system.  The imports of lines 2-13 and 19-21 are taken to
    succeed; permissions on the output directory are not modelled. *)

From Stdlib Require Import ZArith List String Ascii Bool Lia.
Import ListNotations.
Open Scope string_scope.
Open Scope Z_scope.
Local Set Warnings "-register-all".

(** ** Python values *)

(** A finite binary float is [m * 2^e]; 3.5 is [PyFloat 7 (-1)]. *)
Inductive pyval : Type :=
| PyNone
| PyBool (b : bool)
| PyInt (z : Z)
| PyFloat (m e : Z)
| PyStr (s : string)
| PyList (l : list pyval)
| PyDict (d : list (string * pyval)).

Definition pydict := list (string * pyval).

Inductive exn : Type :=
| KeyError (key : pyval)
| IndexError (msg : string)
| TypeError (msg : string)
| AttributeError (msg : string)
| UnboundLocalError (name : string)
| FileNotFoundError (path : string)
| LibraryError (msg : string)
| SystemExit (code : Z).

Inductive outcome (A : Type) : Type :=
| Ok (a : A)
| Raise (e : exn).
Arguments Ok {A} a.
Arguments Raise {A} e.

(** ** Dictionaries, in insertion order *)

Fixpoint dict_get (d : pydict) (k : string) : option pyval :=
  match d with
  | [] => None
  | (k', v) :: d' => if String.eqb k' k then Some v else dict_get d' k
  end.

(** [d[k] = v]: an existing key keeps its position. *)
Fixpoint dict_set (d : pydict) (k : string) (v : pyval) : pydict :=
  match d with
  | [] => [(k, v)]
  | (k', v') :: d' =>
      if String.eqb k' k then (k', v) :: d' else (k', v') :: dict_set d' k v
  end.

(** [d.update] with the keyword arguments [kw] *)
Definition dict_update (d kw : pydict) : pydict :=
  fold_left (fun acc kv => dict_set acc (fst kv) (snd kv)) kw d.

Definition dict_keys (d : pydict) : list string := map fst d.
Definition dict_values (d : pydict) : list pyval := map snd d.

(** ** Comparisons against literals *)

(** [v == True] and [v == False]: booleans are the integers 1 and 0. *)
Definition float_is (m e : Z) (n : Z) : bool :=
  if 0 <=? e then (m * 2 ^ e =? n) else (m =? n * 2 ^ (- e)).

Definition py_eq_bool (v : pyval) (b : bool) : bool :=
  match v with
  | PyBool b' => Bool.eqb b' b
  | PyInt z => z =? (if b then 1 else 0)
  | PyFloat m e => float_is m e (if b then 1 else 0)
  | _ => false
  end.

(** ['lit' == v] *)
Definition py_eq_str (lit : string) (v : pyval) : bool :=
  match v with
  | PyStr s => String.eqb lit s
  | _ => false
  end.

(** [bool(v)] *)
Definition py_truthy (v : pyval) : bool :=
  match v with
  | PyNone => false
  | PyBool b => b
  | PyInt z => negb (z =? 0)
  | PyFloat m _ => negb (m =? 0)
  | PyStr s => negb (String.eqb s "")
  | PyList l => match l with [] => false | _ => true end
  | PyDict d => match d with [] => false | _ => true end
  end.

(** ** [os.path.join] and [str.format] on the script's arguments *)

Fixpoint ends_with_slash (s : string) : bool :=
  match s with
  | EmptyString => false
  | String c EmptyString => Ascii.eqb c "/"
  | String _ s' => ends_with_slash s'
  end.

Definition starts_with_slash (s : string) : bool :=
  match s with
  | String c _ => Ascii.eqb c "/"
  | EmptyString => false
  end.

Definition os_path_join (a b : string) : string :=
  if starts_with_slash b then b
  else if (String.eqb a "" || ends_with_slash a)%bool then a ++ b
  else a ++ "/" ++ b.

Definition digit_char (d : Z) : string :=
  String (ascii_of_nat (48 + Z.to_nat d)) EmptyString.

Fixpoint str_nat (fuel : nat) (z : Z) : string :=
  match fuel with
  | O => ""
  | S f => if z <? 10 then digit_char z
           else str_nat f (z / 10) ++ digit_char (z mod 10)
  end.

(** [str(z)] for an int. *)
Definition str_int (z : Z) : string :=
  if z <? 0 then "-" ++ str_nat (S (Z.to_nat (- z))) (- z)
  else str_nat (S (Z.to_nat z)) z.

(** ['{}:{}'.format(a, b)] *)
Definition format_slice (a b : Z) : string :=
  str_int a ++ ":" ++ str_int b.

(** ** File system *)

Definition content := list Z.
Definition filesystem := list (string * content).

Fixpoint fs_lookup (fs : filesystem) (p : string) : option content :=
  match fs with
  | [] => None
  | (q, c) :: fs' => if String.eqb q p then Some c else fs_lookup fs' p
  end.

Fixpoint fs_remove (fs : filesystem) (p : string) : filesystem :=
  match fs with
  | [] => []
  | (q, c) :: fs' =>
      if String.eqb q p then fs_remove fs' p else (q, c) :: fs_remove fs' p
  end.

(** [open(p, 'wb')] then writing [c]: the file is created or truncated. *)
Definition fs_write (fs : filesystem) (p : string) (c : content) : filesystem :=
  (p, c) :: fs_remove fs p.

(** ** The external packages *)

(** [ase.io.read], [rascal]'s descriptor and kernel, [ubjson.dump] and the
    argparse parser the script builds.  Every operation is a function of its
    arguments; [ubjson.dump] streams into the file, so when it raises the
    file keeps what was written until then; [parse_args] follows
    [store_true]: absent flag is [False], the flag alone is [True]. *)
Class External : Type := {
  Frames : Type;
  Soap : Type;
  Features : Type;
  KernelObj : Type;
  Matrix : Type;
  ase_read : content -> string -> outcome Frames;
  SphericalInvariant : pydict -> outcome Soap;
  soap_hypers : Soap -> pyval;
  soap_transform : Soap -> Frames -> outcome Features;
  Kernel : Soap -> pydict -> outcome KernelObj;
  kernel_call : KernelObj -> Features -> outcome Matrix;
  tolist : Matrix -> pyval;
  ubjson_dump : pyval -> outcome content;
  ubjson_partial : pyval -> content;   (* the bytes written when the dump raises *)
  parse_args : list string -> outcome bool;
  parse_args_default : parse_args [] = Ok false;
  parse_args_flag : parse_args ["-json_dump"] = Ok true
}.

(** ** Interpreter state *)

Inductive call : Type :=
| CallRead (path index : string)
| CallSphericalInvariant (hypers : pydict)
| CallTransform
| CallKernel (hypers_kernel : pydict)
| CallKernelEval
| CallTolist
| CallDump (value : pyval).

Record state : Type := mkState {
  var_data : option pyval;          (* the local [data] *)
  var_max_angular : option pyval;   (* the local [max_angular] *)
  stdout : list (list pyval);       (* one entry per [print] *)
  calls : list call;                (* library calls, oldest first *)
  sys_path : list string;
  files : filesystem
}.

Definition M (A : Type) : Type := state -> outcome A * state.

Definition ret {A} (a : A) : M A := fun s => (Ok a, s).
Definition raise {A} (e : exn) : M A := fun s => (Raise e, s).
Definition bind {A B} (m : M A) (k : A -> M B) : M B :=
  fun s => match m s with
           | (Ok a, s') => k a s'
           | (Raise e, s') => (Raise e, s')
           end.

Declare Scope py_scope.
Delimit Scope py_scope with py.
Notation "x <- m ;; k" := (bind m (fun x => k))
  (at level 61, m at next level, right associativity) : py_scope.
Notation "m ;;; k" := (bind m (fun _ => k))
  (at level 61, right associativity) : py_scope.
Open Scope py_scope.

Definition lift {A} (o : outcome A) : M A := fun s => (o, s).

(** [for x in xs: body x] *)
Fixpoint for_each {A} (xs : list A) (body : A -> M unit) : M unit :=
  match xs with
  | [] => ret tt
  | x :: xs' => body x ;;; for_each xs' body
  end.

Definition log (c : call) : M unit :=
  fun s => (Ok tt, mkState (var_data s) (var_max_angular s) (stdout s)
                           (calls s ++ [c]) (sys_path s) (files s)).

Definition print (args : list pyval) : M unit :=
  fun s => (Ok tt, mkState (var_data s) (var_max_angular s)
                           (stdout s ++ [args]) (calls s) (sys_path s) (files s)).

Definition sys_path_insert0 (p : string) : M unit :=
  fun s => (Ok tt, mkState (var_data s) (var_max_angular s) (stdout s)
                           (calls s) (p :: sys_path s) (files s)).

Definition assign_data (v : pyval) : M unit :=
  fun s => (Ok tt, mkState (Some v) (var_max_angular s) (stdout s)
                           (calls s) (sys_path s) (files s)).

Definition assign_max_angular (v : pyval) : M unit :=
  fun s => (Ok tt, mkState (var_data s) (Some v) (stdout s)
                           (calls s) (sys_path s) (files s)).

Definition load_data : M pyval :=
  fun s => match var_data s with
           | Some v => (Ok v, s)
           | None => (Raise (UnboundLocalError "data"), s)
           end.

Definition load_max_angular : M pyval :=
  fun s => match var_max_angular s with
           | Some v => (Ok v, s)
           | None => (Raise (UnboundLocalError "max_angular"), s)
           end.

Definition get_files : M filesystem := fun s => (Ok (files s), s).

Definition write_file (p : string) (c : content) : M unit :=
  fun s => (Ok tt, mkState (var_data s) (var_max_angular s) (stdout s)
                           (calls s) (sys_path s) (fs_write (files s) p c)).

(** ** Dynamic operations *)

(** [v[key]] on a dictionary with string keys *)
Definition subscript (v key : pyval) : M pyval :=
  match v with
  | PyDict d => match key with
                | PyStr k => match dict_get d k with
                             | Some x => ret x
                             | None => raise (KeyError key)
                             end
                | _ => raise (KeyError key)
                end
  | _ => raise (TypeError "object is not subscriptable")
  end.

(** [v[-1]] *)
Definition subscript_last (v : pyval) : M pyval :=
  match v with
  | PyList l => match rev l with
                | x :: _ => ret x
                | [] => raise (IndexError "list index out of range")
                end
  | _ => raise (TypeError "object is not subscriptable")
  end.

(** the elements a [for] loop draws from [v] *)
Definition iterate (v : pyval) : M (list pyval) :=
  match v with
  | PyList l => ret l
  | PyDict d => ret (map PyStr (dict_keys d))
  | _ => raise (TypeError "object is not iterable")
  end.

(** the mapping behind [**v] *)
Definition unpack_kwargs (v : pyval) : M pydict :=
  match v with
  | PyDict d => ret d
  | _ => raise (TypeError "argument after ** must be a mapping")
  end.

(** [copy.copy] applied to its positional arguments *)
Definition copy (args : list pyval) : M pyval :=
  match args with
  | [x] => ret x
  | [] => raise (TypeError "copy() missing 1 required positional argument: 'x'")
  | _ => raise (TypeError "copy() takes 1 positional argument")
  end.

(** [target.append]: the bound method is looked up on the receiver before
    any argument of the call is evaluated *)
Definition lookup_append (target : pyval) : M unit :=
  match target with
  | PyList _ => ret tt
  | _ => raise (AttributeError "object has no attribute 'append'")
  end.

(** replace the last element of a list *)
Fixpoint set_last (l : list pyval) (v : pyval) : list pyval :=
  match l with
  | [] => []
  | [_] => [v]
  | x :: l' => x :: set_last l' v
  end.

(** [data['rep_info'].append(x)]: the list is reached through [data] only,
    so the mutation is an update of [data]. *)
Definition data_rep_info_append (x : pyval) : M unit :=
  d <- load_data ;;
  r <- subscript d (PyStr "rep_info") ;;
  match d, r with
  | PyDict dd, PyList l => assign_data (PyDict (dict_set dd "rep_info" (PyList (l ++ [x]))))
  | _, _ => raise (AttributeError "object has no attribute 'append'")
  end.

(** [target.append] called with positional [args] and keyword [kwargs],
    where [target] is [data['rep_info'][-1]],
    already evaluated: [list.append] takes one positional argument and no
    keyword argument. *)
Definition data_rep_info_last_append (target : pyval) (args : list pyval)
    (kwargs : pydict) : M unit :=
  match kwargs with
  | _ :: _ => raise (TypeError "append() takes no keyword arguments")
  | [] =>
      match args with
      | [x] =>
          d <- load_data ;;
          r <- subscript d (PyStr "rep_info") ;;
          match d, r, target with
          | PyDict dd, PyList l, PyList inner =>
              assign_data (PyDict (dict_set dd "rep_info"
                                     (PyList (set_last l (PyList (inner ++ [x]))))))
          | _, _, _ => raise (AttributeError "object has no attribute 'append'")
          end
      | _ => raise (TypeError "append() takes exactly one argument")
      end
  end.

(** ** The script *)

Section Script.
Context {E : External}.

(** [ase.io.read(p, index)]: the file is opened, then parsed. *)
Definition read (p index : string) : M Frames :=
  log (CallRead p index) ;;;
  fs <- get_files ;;
  match fs_lookup fs p with
  | None => raise (FileNotFoundError p)
  | Some c => lift (ase_read c index)
  end.

(** *** Locals of [dump_reference_json], lines 22-51 *)

Definition path : string := "../".

Definition cutoffs : list pyval := [PyFloat 7 (-1)].
Definition gaussian_sigmas : list pyval := [PyFloat 1 (-1)].
Definition max_radials : list pyval := [PyInt 6].
Definition max_angulars : list pyval := [PyInt 6].
Definition soap_types : list pyval := [PyStr "RadialSpectrum"; PyStr "PowerSpectrum"].

Definition fn : string := os_path_join path "tests/reference_data/dft-smiles_500.xyz".
Definition fn_to_write : string := os_path_join path "reference_data/dft-smiles_500.ubjson".
Definition start : Z := 0.
Definition length : Z := 5.

Definition kernel_names : list pyval := [PyStr "Cosine"].
Definition target_types : list pyval := [PyStr "structure"; PyStr "atom"].
Definition dependant_args : pydict :=
  [("cosine", PyList [PyDict [("zeta", PyInt 1)];
                      PyDict [("zeta", PyInt 2)];
                      PyDict [("zeta", PyInt 4)]])].

Definition data_literal : pyval :=
  PyDict [("filename", PyStr fn_to_write);
          ("start", PyInt start);
          ("length", PyInt length);
          ("cutoffs", PyList cutoffs);
          ("gaussian_sigmas", PyList gaussian_sigmas);
          ("max_radials", PyList max_radials);
          ("soap_types", PyList soap_types);
          ("kernel_names", PyList kernel_names);
          ("target_types", PyList target_types);
          ("dependant_args", PyDict dependant_args);
          ("rep_info", PyList [])].

(** the path opened at line 89 *)
Definition output_path : string := path ++ "tests/reference_data/kernel_reference.ubjson".

(** *** Lines 64-87: one combination *)

Definition hypers_of (cutoff max_radial max_angular gaussian_sigma soap_type : pyval)
    : pydict :=
  [("interaction_cutoff", cutoff);
   ("cutoff_smooth_width", PyFloat 1 (-1));
   ("max_radial", max_radial);
   ("max_angular", max_angular);
   ("gaussian_sigma_type", PyStr "Constant");
   ("gaussian_sigma_constant", gaussian_sigma);
   ("soap_type", soap_type);
   ("cutoff_function_type", PyStr "Cosine");
   ("normalize", PyBool true);
   ("radial_basis", PyStr "GTO")].

Definition combination (frames : Frames)
    (cutoff kernel_name target_type kwargs soap_type gaussian_sigma max_radial : pyval)
    : M unit :=
  (if py_eq_str "RadialSpectrum" soap_type
   then assign_max_angular (PyInt 0) else ret tt) ;;;
  max_angular <- load_max_angular ;;
  let hypers := hypers_of cutoff max_radial max_angular gaussian_sigma soap_type in
  log (CallSphericalInvariant hypers) ;;;
  soap <- lift (SphericalInvariant hypers) ;;
  log CallTransform ;;;
  soap_vectors <- lift (soap_transform soap frames) ;;
  let hypers_kernel := [("name", kernel_name); ("target_type", target_type)] in
  kw <- unpack_kwargs kwargs ;;
  let hypers_kernel := dict_update hypers_kernel kw in
  log (CallKernel hypers_kernel) ;;;
  kernel <- lift (Kernel soap hypers_kernel) ;;
  log CallKernelEval ;;;
  kk <- lift (kernel_call kernel soap_vectors) ;;
  (* line 85: the receiver data['rep_info'][-1] and its method append *)
  d <- load_data ;;
  r <- subscript d (PyStr "rep_info") ;;
  target <- subscript_last r ;;
  lookup_append target ;;;
  (* lines 85-86: the positional argument dict(kernel_matrix=..., hypers_rep=...) *)
  log CallTolist ;;;
  hr <- copy [soap_hypers soap] ;;
  let bundle := PyDict [("kernel_matrix", tolist kk); ("hypers_rep", hr)] in
  (* line 87: the keyword argument hypers_kernel=copy() *)
  hk <- copy [] ;;
  data_rep_info_last_append target [bundle] [("hypers_kernel", hk)].

(** *** Lines 63-87: the innermost loop; its header rebinds [max_angular] *)

Definition max_angular_loop (frames : Frames)
    (cutoff kernel_name target_type kwargs soap_type gaussian_sigma max_radial : pyval)
    : M unit :=
  for_each max_angulars (fun max_angular =>
    assign_max_angular max_angular ;;;
    combination frames cutoff kernel_name target_type kwargs soap_type
                gaussian_sigma max_radial).

(** *** Lines 54-62: the loop nest *)

Definition traversal (frames : Frames) : M unit :=
  for_each cutoffs (fun cutoff =>
    print [PyStr fn; cutoff] ;;;
    data_rep_info_append (PyList []) ;;;
    for_each kernel_names (fun kernel_name =>
      for_each target_types (fun target_type =>
        args <- subscript (PyDict dependant_args) kernel_name ;;
        args <- iterate args ;;
        for_each args (fun kwargs =>
          for_each soap_types (fun soap_type =>
            for_each gaussian_sigmas (fun gaussian_sigma =>
              for_each max_radials (fun max_radial =>
                max_angular_loop frames cutoff kernel_name target_type kwargs
                                 soap_type gaussian_sigma max_radial))))))).

(** *** Lines 19-87: everything before the file is opened *)

Definition generate : M unit :=
  sys_path_insert0 (os_path_join path "build/") ;;;
  sys_path_insert0 (os_path_join path "tests/") ;;;
  assign_data data_literal ;;;
  frames <- read fn (format_slice start (start + length)) ;;
  traversal frames.

(** *** Lines 89-90: [open(..., 'wb')] creates or truncates the file, then
    [ubjson.dump] writes the encoding of [data] into it; when the dump
    raises, the [with] block closes the file on what was written so far. *)

Definition serialize : M unit :=
  write_file output_path [] ;;;
  d <- load_data ;;
  log (CallDump d) ;;;
  match ubjson_dump d with
  | Ok bytes => write_file output_path bytes
  | Raise e => write_file output_path (ubjson_partial d) ;;; raise e
  end.

Definition dump_reference_json : M unit :=
  generate ;;; serialize.

(** *** Lines 95-99 *)

Definition main (json_dump : pyval) : M unit :=
  if py_eq_bool json_dump true then dump_reference_json else ret tt.

(** *** Lines 3 and 104-108: the process, with its exit status *)

Definition exit_status {A} (o : outcome A) : Z :=
  match o with
  | Ok _ => 0
  | Raise (SystemExit c) => c
  | Raise _ => 1
  end.

Definition script (argv : list string) : state -> Z * state :=
  fun s =>
    let r := (sys_path_insert0 "../build/" ;;;
              json_dump <- lift (parse_args argv) ;;
              main (PyBool json_dump)) s in
    (exit_status (fst r), snd r).

End Script.

(** ** A concrete instance of the external packages

    Frames are counted, a descriptor remembers the hyperparameters it was
    built from, every kernel matrix is empty, and the serializer emits one
    byte.  It is used to run the script on concrete states. *)

Definition toy_parse_args (argv : list string) : outcome bool :=
  match argv with
  | [] => Ok false
  | [a] => if String.eqb a "-json_dump" then Ok true else Raise (SystemExit 2)
  | _ => Raise (SystemExit 2)
  end.

Instance toy_external : External := {
  Frames := nat;
  Soap := pydict;
  Features := nat;
  KernelObj := pydict;
  Matrix := pyval;
  ase_read := fun c _ => Ok (List.length c);
  SphericalInvariant := fun h => Ok h;
  soap_hypers := fun h => PyDict h;
  soap_transform := fun _ n => Ok n;
  Kernel := fun _ hk => Ok hk;
  kernel_call := fun _ _ => Ok (PyList []);
  tolist := fun m => m;
  ubjson_dump := fun _ => Ok [123; 125];
  ubjson_partial := fun _ => [];
  parse_args := toy_parse_args;
  parse_args_default := eq_refl;
  parse_args_flag := eq_refl
}.

Definition empty_state : state :=
  mkState None None [] [] [] [].

(** a file system that holds the input structure file *)
Definition state_with_input : state :=
  mkState None None [] [] [] [("../tests/reference_data/dft-smiles_500.xyz", [1; 2; 3; 4; 5])].


(** the locals as a RadialSpectrum combination leaves them: the override has
    rebound [max_angular] to 0 *)
Definition state_after_override : state :=
  mkState (Some (PyDict [("rep_info", PyList [PyList []])])) (Some (PyInt 0)) [] [] [] [].

(** ** States met during a run *)

(** the slice passed to [read]: ['{}:{}'.format(start, start+length)] *)
Definition frame_slice : string := format_slice start (start + length).

(** the state when [read] has been called: [sys.path] extended, [data]
    bound to the literal of lines 41-51 *)
Definition state_at_read (s : state) : state :=
  mkState (Some data_literal) (var_max_angular s) (stdout s)
          (calls s ++ [CallRead fn frame_slice])
          (os_path_join path "tests/" :: os_path_join path "build/" :: sys_path s)
          (files s).

(** [data] once line 56 has run for the first cutoff *)
Definition data_at_first_cutoff : pyval :=
  match data_literal with
  | PyDict d => PyDict (dict_set d "rep_info" (PyList [PyList []]))
  | v => v
  end.

(** the state when line 59 looks [kernel_name] up in [dependant_args] *)
Definition state_at_lookup (s : state) : state :=
  mkState (Some data_at_first_cutoff) (var_max_angular s)
          (stdout s ++ [[PyStr fn; PyFloat 7 (-1)]])
          (calls s ++ [CallRead fn frame_slice])
          (os_path_join path "tests/" :: os_path_join path "build/" :: sys_path s)
          (files s).

(** inside the loops for the first cutoff, [max_angular] bound by the header *)
Definition state_in_loop : state :=
  mkState (Some data_at_first_cutoff) (Some (PyInt 6)) [] [] []
          [("../tests/reference_data/dft-smiles_500.xyz", [1; 2; 3; 4; 5])].

(** ** A second instance, whose packages reject bad input

    The reader wants five frames, the descriptor a positive [max_radial],
    the serializer a dictionary.  It is used to run the error paths. *)

Definition strict_read (c : content) (index : string) : outcome nat :=
  if Z.of_nat (List.length c) <? 5
  then Raise (LibraryError "fewer than 5 frames") else Ok 5%nat.

Definition strict_SphericalInvariant (h : pydict) : outcome pydict :=
  match dict_get h "max_radial" with
  | Some (PyInt z) =>
      if 0 <? z then Ok h else Raise (LibraryError "max_radial must be positive")
  | _ => Raise (TypeError "max_radial must be an int")
  end.

Definition strict_dump (v : pyval) : outcome content :=
  match v with
  | PyDict _ => Ok [123; 125]
  | _ => Raise (TypeError "cannot encode")
  end.

Definition strict_external : External := {|
  Frames := nat;
  Soap := pydict;
  Features := nat;
  KernelObj := pydict;
  Matrix := pyval;
  ase_read := strict_read;
  SphericalInvariant := strict_SphericalInvariant;
  soap_hypers := fun h => PyDict h;
  soap_transform := fun _ n => Ok n;
  Kernel := fun _ hk => Ok hk;
  kernel_call := fun _ _ => Ok (PyList []);
  tolist := fun m => m;
  ubjson_dump := strict_dump;
  ubjson_partial := fun _ => [123];
  parse_args := toy_parse_args;
  parse_args_default := eq_refl;
  parse_args_flag := eq_refl
|}.

(** an input file that holds three frames only *)
Definition state_with_short_input : state :=
  mkState None None [] [] [] [("../tests/reference_data/dft-smiles_500.xyz", [1; 2; 3])].

(** [data] bound, and an older fixture already at the output path *)
Definition state_before_serialize : state :=
  mkState (Some data_at_first_cutoff) None [] [] []
          [("../tests/reference_data/kernel_reference.ubjson", [9; 9; 9]);
           ("../tests/reference_data/dft-smiles_500.xyz", [1; 2; 3; 4; 5])].

(** [data] bound to something the strict serializer rejects, no output yet *)
Definition state_with_bad_data : state :=
  mkState (Some PyNone) None [] [] [] [].

(** ** [tests/python_binding_tests.py]

    A test-case instance is the dictionary of its attributes.  A test method
    returns [None] when it returns normally and the exception otherwise;
    unittest counts an [AssertionError] as a failure and anything else as an
    error.  The test case imported at line 5 is not part of these sources:
    its verdicts are an argument of [unittest_main]. *)

Module SimpleCheck.

Inductive test_exn : Type :=
| AssertionError
| Other (e : exn).

Inductive verdict : Type := Pass | Fail | Error.

(** [self.name] *)
Definition getattr (self : pydict) (name : string) : test_exn + pyval :=
  match dict_get self name with
  | Some v => inr v
  | None => inl (Other (AttributeError name))
  end.

(** [self.assertTrue(expr)] *)
Definition assertTrue (expr : pyval) : option test_exn :=
  if py_truthy expr then None else Some AssertionError.

(** lines 8-9 *)
Definition setUp (self : pydict) : pydict :=
  dict_set self "truth" (PyBool true).

(** lines 12-13 *)
Definition test_simple_example (self : pydict) : option test_exn :=
  match getattr self "truth" with
  | inl e => Some e
  | inr v => assertTrue v
  end.

Definition verdict_of (r : option test_exn) : verdict :=
  match r with
  | None => Pass
  | Some AssertionError => Fail
  | Some (Other _) => Error
  end.

(** unittest runs [setUp] on the fresh instance, then the test method *)
Definition run_test (self : pydict) : verdict :=
  verdict_of (test_simple_example (setUp self)).

Definition is_pass (v : verdict) : bool :=
  match v with Pass => true | _ => false end.

(** lines 16-17: [unittest.main()] runs the test cases found in the module,
    [SimpleCheck] and the imported one, and exits with 0 when all passed,
    with 1 otherwise. *)
Definition unittest_main (imported : list verdict) : Z :=
  if forallb is_pass (run_test [] :: imported) then 0 else 1.

End SimpleCheck.

(** the value line 70 reads after the override of lines 64-65 *)
Definition effective_max_angular (soap_type bound : pyval) : pyval :=
  if py_eq_str "RadialSpectrum" soap_type then PyInt 0 else bound.

(** * Properties *)

(** ** Commands that leave the file system alone *)

Definition keeps_files {A} (m : M A) : Prop :=
  forall s, files (snd (m s)) = files s.

Lemma keeps_files_ret {A} (a : A) : keeps_files (ret a).
Proof. intro s. reflexivity. Qed.

Lemma keeps_files_raise {A} (e : exn) : keeps_files (@raise A e).
Proof. intro s. reflexivity. Qed.

Lemma keeps_files_lift {A} (o : outcome A) : keeps_files (lift o).
Proof. intro s. reflexivity. Qed.

Lemma keeps_files_bind {A B} (m : M A) (k : A -> M B) :
  keeps_files m -> (forall a, keeps_files (k a)) -> keeps_files (bind m k).
Proof.
  intros Hm Hk s. unfold bind. specialize (Hm s).
  destruct (m s) as [[a | e] s1]; simpl in *.
  - rewrite Hk. exact Hm.
  - exact Hm.
Qed.

Lemma keeps_files_for_each {A} (xs : list A) (body : A -> M unit) :
  (forall x, keeps_files (body x)) -> keeps_files (for_each xs body).
Proof.
  intro Hb. induction xs as [| x xs IH]; simpl.
  - apply keeps_files_ret.
  - apply keeps_files_bind; [apply Hb | intros _; exact IH].
Qed.

Lemma keeps_files_log c : keeps_files (log c).
Proof. intro s. reflexivity. Qed.

Lemma keeps_files_print a : keeps_files (print a).
Proof. intro s. reflexivity. Qed.

Lemma keeps_files_sys_path_insert0 p : keeps_files (sys_path_insert0 p).
Proof. intro s. reflexivity. Qed.

Lemma keeps_files_assign_data v : keeps_files (assign_data v).
Proof. intro s. reflexivity. Qed.

Lemma keeps_files_assign_max_angular v : keeps_files (assign_max_angular v).
Proof. intro s. reflexivity. Qed.

Lemma keeps_files_load_data : keeps_files load_data.
Proof. intro s. unfold load_data. destruct (var_data s); reflexivity. Qed.

Lemma keeps_files_load_max_angular : keeps_files load_max_angular.
Proof. intro s. unfold load_max_angular. destruct (var_max_angular s); reflexivity. Qed.

Lemma keeps_files_get_files : keeps_files get_files.
Proof. intro s. reflexivity. Qed.

Create HintDb keeps discriminated.
#[export] Hint Resolve keeps_files_ret keeps_files_raise keeps_files_lift
  keeps_files_log keeps_files_print keeps_files_sys_path_insert0
  keeps_files_assign_data keeps_files_assign_max_angular
  keeps_files_load_data keeps_files_load_max_angular
  keeps_files_get_files : keeps.

(** splits a command along its binds, loops and case analyses *)
Ltac keeps :=
  repeat first
    [ apply keeps_files_bind; [ | intro ]
    | apply keeps_files_for_each; intro
    | solve [ auto with keeps ]
    | match goal with
      | |- keeps_files (match ?x with _ => _ end) => destruct x
      end ].

Lemma keeps_files_subscript v k : keeps_files (subscript v k).
Proof. unfold subscript. keeps. Qed.

Lemma keeps_files_subscript_last v : keeps_files (subscript_last v).
Proof. unfold subscript_last. keeps. Qed.

Lemma keeps_files_iterate v : keeps_files (iterate v).
Proof. unfold iterate. keeps. Qed.

Lemma keeps_files_unpack_kwargs v : keeps_files (unpack_kwargs v).
Proof. unfold unpack_kwargs. keeps. Qed.

Lemma keeps_files_copy a : keeps_files (copy a).
Proof. unfold copy. keeps. Qed.

Lemma keeps_files_lookup_append t : keeps_files (lookup_append t).
Proof. unfold lookup_append. keeps. Qed.

#[export] Hint Resolve keeps_files_subscript keeps_files_subscript_last
  keeps_files_iterate keeps_files_unpack_kwargs keeps_files_copy
  keeps_files_lookup_append : keeps.

Lemma keeps_files_data_rep_info_append x : keeps_files (data_rep_info_append x).
Proof. unfold data_rep_info_append. keeps. Qed.

Lemma keeps_files_data_rep_info_last_append t a kw :
  keeps_files (data_rep_info_last_append t a kw).
Proof. unfold data_rep_info_last_append. keeps. Qed.

#[export] Hint Resolve keeps_files_data_rep_info_append
  keeps_files_data_rep_info_last_append : keeps.

Section Properties.
Context {E : External}.

Lemma keeps_files_read p i : keeps_files (read p i).
Proof. unfold read. keeps. Qed.

Lemma keeps_files_combination frames c kn tt kw st gs mr :
  keeps_files (combination frames c kn tt kw st gs mr).
Proof. unfold combination. keeps. Qed.

Lemma keeps_files_max_angular_loop frames c kn tt kw st gs mr :
  keeps_files (max_angular_loop frames c kn tt kw st gs mr).
Proof. unfold max_angular_loop. keeps. Qed.

Lemma keeps_files_traversal frames : keeps_files (traversal frames).
Proof. unfold traversal. keeps. Qed.

Lemma keeps_files_generate : keeps_files generate.
Proof.
  unfold generate. keeps.
Qed.

End Properties.

(** ** One combination: lines 63-87 *)

(** case analysis on every outcome a command inspects, innermost first *)
Ltac project :=
  cbn [var_data var_max_angular stdout calls sys_path files fst snd].

Ltac crack :=
  project;
  repeat match goal with
  | |- context [match ?x with _ => _ end] =>
      lazymatch x with
      | context [match _ with _ => _ end] => fail
      | _ => destruct x eqn:?; project
      end
  end.

Ltac open_combination :=
  unfold max_angular_loop, max_angulars, for_each, combination, bind, lift, log,
    load_max_angular, load_data, unpack_kwargs, subscript, subscript_last,
    lookup_append, copy,
    assign_max_angular, ret, raise;
  project.

Ltac first_call :=
  project; repeat rewrite <- app_assoc; eexists; reflexivity.

Section Combination.
Context {E : External}.


(** C1, as the code has it.  The statement at lines 85-87 never appends:
    whatever the combination, the library and the state, running lines 64-87
    ends in an exception and leaves [data], hence every result list in
    [data['rep_info']], as it was.  (When every library call succeeds the
    exception is the [TypeError] of [copy()], see
    [combination_toy_TypeError].) *)
Theorem combination_appends_no_bundle frames c kn tt kw st gs mr s :
  exists e s',
    combination frames c kn tt kw st gs mr s = (Raise e, s')
    /\ var_data s' = var_data s.
Proof.
  open_combination. crack; eauto.
Qed.


(** C9.  The loop header rebinds [max_angular] on every iteration, so an
    override made by an earlier "RadialSpectrum" combination does not reach
    a later one: for a kind other than "RadialSpectrum" (in the grid:
    "PowerSpectrum") the constructor receives the grid's own value, from any
    state, in particular one where the variable was left at 0. *)
Theorem power_spectrum_gets_nominal_max_angular frames c kn tt kw st gs mr s :
  py_eq_str "RadialSpectrum" st = false ->
  exists nominal rest,
    hd_error max_angulars = Some nominal
    /\ calls (snd (max_angular_loop frames c kn tt kw st gs mr s))
       = (calls s ++ CallSphericalInvariant (hypers_of c mr nominal gs st) :: rest)%list
    /\ dict_get (hypers_of c mr nominal gs st) "max_angular" = Some nominal.
Proof.
  intro H. exists (PyInt 6).
  assert (exists rest,
    calls (snd (max_angular_loop frames c kn tt kw st gs mr s))
    = (calls s ++ CallSphericalInvariant (hypers_of c mr (PyInt 6) gs st) :: rest)%list)
    as [rest Hrest].
  { open_combination. rewrite H. crack; first_call. }
  exists rest. split; [reflexivity | split; [exact Hrest | reflexivity]].
Qed.

End Combination.

(** ** Whole runs *)

Section Runs.
Context {E : External}.

(** What [generate] does, by the two things it inspects: whether the input
    file exists and whether [ase] can read five frames from it. *)
Lemma generate_unfold s :
  generate s =
  match fs_lookup (files s) fn with
  | None => (Raise (FileNotFoundError fn), state_at_read s)
  | Some c =>
      match ase_read c frame_slice with
      | Raise e => (Raise e, state_at_read s)
      | Ok _ => (Raise (KeyError (PyStr "Cosine")), state_at_lookup s)
      end
  end.
Proof.
  unfold generate, read, get_files, bind, sys_path_insert0, assign_data, log.
  project.
  destruct (fs_lookup (files s) fn) as [c |]; [| reflexivity].
  unfold lift. fold frame_slice.
  destruct (ase_read c frame_slice) as [frames | e]; reflexivity.
Qed.

Lemma generate_never_returns s : exists e s', generate s = (Raise e, s').
Proof.
  rewrite generate_unfold.
  destruct (fs_lookup (files s) fn) as [c |]; [| eauto].
  destruct (ase_read c frame_slice); eauto.
Qed.

Lemma dump_reference_json_unfold s : dump_reference_json s = generate s.
Proof.
  unfold dump_reference_json, bind.
  destruct (generate_never_returns s) as [e [s' ->]]. reflexivity.
Qed.

(** lines 89-90 on their own: the serializer receives [data], and its bytes
    become the content of the output file *)
Lemma serialize_writes_data s v bytes :
  var_data s = Some v ->
  ubjson_dump v = Ok bytes ->
  exists s',
    serialize s = (Ok tt, s')
    /\ fs_lookup (files s') output_path = Some bytes
    /\ calls s' = (calls s ++ [CallDump v])%list.
Proof.
  intros Hv Hb. unfold serialize, bind, write_file, load_data, log.
  project. rewrite Hv. project. rewrite Hb.
  eexists. split; [reflexivity |]. project. split; [| reflexivity].
  unfold fs_write. cbn [fs_lookup]. rewrite String.eqb_refl. reflexivity.
Qed.

(** line 56 on a well-formed [data] *)
Lemma data_rep_info_append_spec x s d l :
  var_data s = Some (PyDict d) ->
  dict_get d "rep_info" = Some (PyList l) ->
  data_rep_info_append x s
  = (Ok tt, mkState (Some (PyDict (dict_set d "rep_info" (PyList (l ++ [x])))))
                    (var_max_angular s) (stdout s) (calls s) (sys_path s) (files s)).
Proof.
  intros Hd Hr.
  unfold data_rep_info_append, bind, load_data, subscript, assign_data, ret.
  rewrite Hd. cbn beta iota. rewrite Hr. reflexivity.
Qed.

(** C3, as the code has it.  With a readable input file the run does not
    complete: the first lookup [dependant_args[kernel_name]] raises
    [KeyError: 'Cosine'] (the only key is ['cosine']).  At that point
    [rep_info] holds one inner list, for the one cutoff, with no result
    bundle in it, and the file system is untouched. *)
Theorem dump_reference_json_raises_KeyError s c frames :
  fs_lookup (files s) fn = Some c ->
  ase_read c "0:5" = Ok frames ->
  exists s' d,
    dump_reference_json s = (Raise (KeyError (PyStr "Cosine")), s')
    /\ var_data s' = Some (PyDict d)
    /\ dict_get d "rep_info" = Some (PyList [PyList []])
    /\ files s' = files s.
Proof.
  intros Hf Hr. rewrite dump_reference_json_unfold, generate_unfold, Hf.
  change frame_slice with "0:5". rewrite Hr.
  eexists. eexists. split; [reflexivity |].
  split; [reflexivity |]. split; reflexivity.
Qed.

(** C4.  When the part of the routine that precedes the [open] of line 89
    raises, and in particular when the input file is missing, the routine
    raises the same exception and the file system is as before: an output
    file that did not exist still does not exist. *)
Theorem no_output_file_on_early_failure s :
  fs_lookup (files s) output_path = None ->
  (fs_lookup (files s) fn = None \/ exists e s', generate s = (Raise e, s')) ->
  exists e s',
    dump_reference_json s = (Raise e, s')
    /\ files s' = files s
    /\ fs_lookup (files s') output_path = None.
Proof.
  intros Hout H.
  assert (exists e s', generate s = (Raise e, s')) as [e [s' Hg]].
  { destruct H as [Hin | H]; [| exact H].
    rewrite generate_unfold, Hin. eauto. }
  exists e, s'.
  assert (files s' = files s) as Hfiles.
  { pose proof (keeps_files_generate s) as K. rewrite Hg in K. exact K. }
  split.
  - unfold dump_reference_json, bind. rewrite Hg. reflexivity.
  - split; [exact Hfiles | rewrite Hfiles; exact Hout].
Qed.

(** C5, as the code has it.  Two runs on the same readable input file do
    not produce the same output file: each ends in [KeyError: 'Cosine']
    before line 89 and leaves the output path as it found it, so when the
    two file systems differ there beforehand (an older fixture in one, none
    in the other) they differ there afterwards. *)
Theorem same_input_leaves_different_outputs s1 s2 c frames :
  fs_lookup (files s1) fn = Some c ->
  fs_lookup (files s2) fn = Some c ->
  ase_read c "0:5" = Ok frames ->
  fs_lookup (files s1) output_path <> fs_lookup (files s2) output_path ->
  fst (dump_reference_json s1) = Raise (KeyError (PyStr "Cosine"))
  /\ fst (dump_reference_json s2) = Raise (KeyError (PyStr "Cosine"))
  /\ fs_lookup (files (snd (dump_reference_json s1))) output_path
     = fs_lookup (files s1) output_path
  /\ fs_lookup (files (snd (dump_reference_json s2))) output_path
     = fs_lookup (files s2) output_path
  /\ fs_lookup (files (snd (dump_reference_json s1))) output_path
     <> fs_lookup (files (snd (dump_reference_json s2))) output_path.
Proof.
  intros H1 H2 Hr Hne.
  rewrite !dump_reference_json_unfold, !generate_unfold, H1, H2.
  change frame_slice with "0:5". rewrite Hr. project.
  repeat split; try reflexivity. exact Hne.
Qed.

(** C6, amended.  However the run ends, [data] (the record line 90 hands to
    the serializer) has exactly the eleven keys, in this order.  Its
    [filename] is [fn_to_write], "../reference_data/dft-smiles_500.ubjson",
    which is neither the file that is read nor the file that is written;
    the grid axes it records are cutoffs, gaussian_sigmas, max_radials,
    soap_types, kernel_names, target_types and dependant_args, and there is
    no key for max_angulars. *)
Theorem data_record_keys s :
  exists d rep_info,
    var_data (snd (dump_reference_json s)) = Some (PyDict d)
    /\ dict_keys d = ["filename"; "start"; "length"; "cutoffs"; "gaussian_sigmas";
                      "max_radials"; "soap_types"; "kernel_names"; "target_types";
                      "dependant_args"; "rep_info"]
    /\ dict_get d "filename" = Some (PyStr "../reference_data/dft-smiles_500.ubjson")
    /\ dict_get d "start" = Some (PyInt 0)
    /\ dict_get d "length" = Some (PyInt 5)
    /\ dict_get d "cutoffs" = Some (PyList cutoffs)
    /\ dict_get d "gaussian_sigmas" = Some (PyList gaussian_sigmas)
    /\ dict_get d "max_radials" = Some (PyList max_radials)
    /\ dict_get d "soap_types" = Some (PyList soap_types)
    /\ dict_get d "kernel_names" = Some (PyList kernel_names)
    /\ dict_get d "target_types" = Some (PyList target_types)
    /\ dict_get d "dependant_args" = Some (PyDict dependant_args)
    /\ dict_get d "rep_info" = Some (PyList rep_info)
    /\ dict_get d "max_angulars" = None.
Proof.
  rewrite dump_reference_json_unfold, generate_unfold.
  destruct (fs_lookup (files s) fn) as [c |].
  - destruct (ase_read c frame_slice);
      eexists; eexists; split; [reflexivity | repeat split | reflexivity | repeat split].
  - eexists; eexists; split; [reflexivity | repeat split].
Qed.

(** C7.  [main] runs the routine exactly when the flag is set: with [False],
    the parser's default, it does nothing, and the process (which has only
    extended [sys.path] at line 3) exits with status 0; with [True] it is
    [dump_reference_json], and the exit status is that run's. *)
Theorem main_runs_iff_flag_set (b : bool) s :
  main (PyBool b) s = (if b then dump_reference_json s else (Ok tt, s))
  /\ script [] s = (0, snd (sys_path_insert0 "../build/" s))
  /\ script ["-json_dump"] s
     = (exit_status (fst (dump_reference_json (snd (sys_path_insert0 "../build/" s)))),
        snd (dump_reference_json (snd (sys_path_insert0 "../build/" s)))).
Proof.
  split; [destruct b; reflexivity |].
  unfold script, bind, lift. project.
  rewrite parse_args_default, parse_args_flag. split; reflexivity.
Qed.

(** C8, as the code has it.  The loop nest is entered in the order the
    claim gives, but the traversal stops at line 59 of its first pass, where
    [dependant_args['Cosine']] raises [KeyError]: it has printed once and
    appended the empty list of the first cutoff, and it has reached no
    combination (no library call is made, [max_angular] is never bound) and
    appended no result bundle. *)
Theorem traversal_reaches_no_combination frames s d l :
  var_data s = Some (PyDict d) ->
  dict_get d "rep_info" = Some (PyList l) ->
  exists s',
    traversal frames s = (Raise (KeyError (PyStr "Cosine")), s')
    /\ calls s' = calls s
    /\ var_max_angular s' = var_max_angular s
    /\ stdout s' = (stdout s ++ [[PyStr fn; PyFloat 7 (-1)]])%list
    /\ var_data s' = Some (PyDict (dict_set d "rep_info" (PyList (l ++ [PyList []])))).
Proof.
  intros Hd Hr.
  unfold traversal, cutoffs. cbn [for_each]. unfold bind, print.
  erewrite data_rep_info_append_spec by (project; eassumption).
  eexists. split; [reflexivity |]. repeat split; reflexivity.
Qed.

(** C10.  An argument that does not compare equal to [True] (a non-empty
    string, for one, although it is truthy) makes [main] return at once,
    the state unchanged. *)
Theorem main_skips_unless_equal_True v s :
  py_eq_bool v true = false ->
  main v s = (Ok tt, s).
Proof.
  intro H. unfold main. rewrite H. reflexivity.
Qed.

End Runs.

(** ** The script on concrete states, with [toy_external] *)

Example fn_value : fn = "../tests/reference_data/dft-smiles_500.xyz".
Proof. reflexivity. Qed.

Example fn_to_write_value : fn_to_write = "../reference_data/dft-smiles_500.ubjson".
Proof. reflexivity. Qed.

Example output_path_value :
  output_path = "../tests/reference_data/kernel_reference.ubjson".
Proof. reflexivity. Qed.

Example frame_slice_value : frame_slice = "0:5".
Proof. reflexivity. Qed.

(** [1 == True] and [1.0 == True] hold in Python, ["True" == True] does not. *)
Example py_eq_bool_numbers :
  py_eq_bool (PyInt 1) true = true
  /\ py_eq_bool (PyFloat 2 (-1)) true = true
  /\ py_eq_bool (PyStr "True") true = false
  /\ py_eq_bool (PyInt 2) true = false.
Proof. repeat split; reflexivity. Qed.

(** With every library call succeeding, lines 64-87 end in the [TypeError]
    of [copy()], after the descriptor and the kernel have been computed. *)
Example combination_toy_TypeError :
  combination (E := toy_external) 5%nat
    (PyFloat 7 (-1)) (PyStr "Cosine") (PyStr "structure")
    (PyDict [("zeta", PyInt 1)]) (PyStr "RadialSpectrum") (PyFloat 1 (-1)) (PyInt 6)
    state_in_loop
  = (Raise (TypeError "copy() missing 1 required positional argument: 'x'"),
     mkState (Some data_at_first_cutoff) (Some (PyInt 0)) []
       [CallSphericalInvariant
          (hypers_of (PyFloat 7 (-1)) (PyInt 6) (PyInt 0) (PyFloat 1 (-1))
                     (PyStr "RadialSpectrum"));
        CallTransform;
        CallKernel [("name", PyStr "Cosine"); ("target_type", PyStr "structure");
                    ("zeta", PyInt 1)];
        CallKernelEval; CallTolist]
       [] (files state_in_loop)).
Proof. reflexivity. Qed.

(** Even with [copy()] out of the way, [list.append] rejects the keyword
    argument [hypers_kernel]. *)
Example append_rejects_keyword target bundle hk s :
  data_rep_info_last_append target [bundle] [("hypers_kernel", hk)] s
  = (Raise (TypeError "append() takes no keyword arguments"), s).
Proof. reflexivity. Qed.

Example script_without_flag :
  script (E := toy_external) [] state_with_input
  = (0, mkState None None [] [] ["../build/"] (files state_with_input)).
Proof. reflexivity. Qed.

Example script_with_flag_exit_status :
  fst (script (E := toy_external) ["-json_dump"] state_with_input) = 1.
Proof. reflexivity. Qed.


Lemma power_spectrum_gets_nominal_max_angular_witness :
  var_max_angular state_after_override = Some (PyInt 0)
  /\ py_eq_str "RadialSpectrum" (PyStr "PowerSpectrum") = false
  /\ exists nominal rest,
       hd_error max_angulars = Some nominal
       /\ calls (snd (max_angular_loop (E := toy_external) 5%nat
                        (PyFloat 7 (-1)) (PyStr "Cosine") (PyStr "structure")
                        (PyDict [("zeta", PyInt 1)]) (PyStr "PowerSpectrum")
                        (PyFloat 1 (-1)) (PyInt 6) state_after_override))
          = (calls state_after_override
             ++ CallSphericalInvariant
                  (hypers_of (PyFloat 7 (-1)) (PyInt 6) nominal (PyFloat 1 (-1))
                             (PyStr "PowerSpectrum")) :: rest)%list
       /\ dict_get (hypers_of (PyFloat 7 (-1)) (PyInt 6) nominal (PyFloat 1 (-1))
                              (PyStr "PowerSpectrum")) "max_angular"
          = Some nominal.
Proof.
  split; [reflexivity |]. split; [reflexivity |].
  apply (power_spectrum_gets_nominal_max_angular (E := toy_external)).
  reflexivity.
Defined.

Lemma dump_reference_json_raises_KeyError_witness :
  fs_lookup (files state_with_input) fn = Some [1; 2; 3; 4; 5]
  /\ ase_read (External := toy_external) [1; 2; 3; 4; 5] "0:5" = Ok 5%nat
  /\ exists s' d,
       dump_reference_json (E := toy_external) state_with_input
       = (Raise (KeyError (PyStr "Cosine")), s')
       /\ var_data s' = Some (PyDict d)
       /\ dict_get d "rep_info" = Some (PyList [PyList []])
       /\ files s' = files state_with_input.
Proof.
  split; [reflexivity |]. split; [reflexivity |].
  apply (dump_reference_json_raises_KeyError (E := toy_external)
           state_with_input [1; 2; 3; 4; 5] 5%nat); reflexivity.
Defined.

Lemma no_output_file_on_early_failure_witness :
  fs_lookup (files empty_state) output_path = None
  /\ fs_lookup (files empty_state) fn = None
  /\ exists e s',
       dump_reference_json (E := toy_external) empty_state = (Raise e, s')
       /\ files s' = files empty_state
       /\ fs_lookup (files s') output_path = None.
Proof.
  split; [reflexivity |]. split; [reflexivity |].
  apply (no_output_file_on_early_failure (E := toy_external) empty_state);
    [reflexivity | left; reflexivity].
Defined.

Lemma same_input_leaves_different_outputs_witness :
  fs_lookup (files state_before_serialize) fn = Some [1; 2; 3; 4; 5]
  /\ fs_lookup (files state_with_input) fn = Some [1; 2; 3; 4; 5]
  /\ fs_lookup (files (snd (dump_reference_json (E := toy_external)
                              state_before_serialize))) output_path
     = Some [9; 9; 9]
  /\ fs_lookup (files (snd (dump_reference_json (E := toy_external)
                              state_with_input))) output_path
     = None.
Proof.
  split; [reflexivity |]. split; [reflexivity |].
  destruct (same_input_leaves_different_outputs (E := toy_external)
              state_before_serialize state_with_input [1; 2; 3; 4; 5] 5%nat
              eq_refl eq_refl eq_refl
              (fun H => eq_ind (Some [9; 9; 9])
                          (fun o => match o with Some _ => True | None => False end)
                          I None H))
    as [_ [_ [H3 [H4 _]]]].
  split; [rewrite H3 | rewrite H4]; reflexivity.
Defined.

Lemma traversal_reaches_no_combination_witness :
  var_data (state_at_read state_with_input) = Some data_literal
  /\ exists s',
       traversal (E := toy_external) 5%nat (state_at_read state_with_input)
       = (Raise (KeyError (PyStr "Cosine")), s')
       /\ calls s' = calls (state_at_read state_with_input)
       /\ var_max_angular s' = None.
Proof.
  split; [reflexivity |].
  destruct (traversal_reaches_no_combination (E := toy_external) 5%nat
              (state_at_read state_with_input) _ [] eq_refl eq_refl)
    as [s' [H1 [H2 [H3 _]]]].
  exists s'. split; [exact H1 | split; [exact H2 | exact H3]].
Defined.

Lemma main_skips_unless_equal_True_witness :
  py_truthy (PyStr "yes") = true
  /\ py_eq_bool (PyStr "yes") true = false
  /\ main (E := toy_external) (PyStr "yes") state_with_input
     = (Ok tt, state_with_input).
Proof.
  split; [reflexivity |]. split; [reflexivity |].
  apply (main_skips_unless_equal_True (E := toy_external)). reflexivity.
Defined.

(** C6, as stated, fails.  After a run on a readable input the record in
    [data] has the eleven keys, but none of its values is the path that was
    read ([fn]) and none is the path line 89 opens ([output_path]). *)
Lemma data_record_omits_input_and_output_paths :
  ~ (exists d,
       var_data (snd (dump_reference_json (E := toy_external) state_with_input))
       = Some (PyDict d)
       /\ dict_keys d = ["filename"; "start"; "length"; "cutoffs"; "gaussian_sigmas";
                         "max_radials"; "soap_types"; "kernel_names"; "target_types";
                         "dependant_args"; "rep_info"]
       /\ In (PyStr fn) (dict_values d)
       /\ In (PyStr output_path) (dict_values d)).
Proof.
  intros [d [Hd [_ [Hin _]]]].
  vm_compute in Hd. injection Hd as <-.
  vm_compute in Hin.
  repeat (destruct Hin as [Hin | Hin]; [discriminate Hin |]).
  exact Hin.
Qed.

(** * Further properties of the script *)

(** ** Dictionaries *)

Lemma dict_get_set_same d k v : dict_get (dict_set d k v) k = Some v.
Proof.
  induction d as [| [k' v'] d IH]; simpl.
  - now rewrite String.eqb_refl.
  - destruct (String.eqb k' k) eqn:Hk; simpl; rewrite Hk; [reflexivity | exact IH].
Qed.

Lemma dict_get_set_other d k v k' :
  k <> k' -> dict_get (dict_set d k v) k' = dict_get d k'.
Proof.
  intro Hne. induction d as [| [k0 v0] d IH]; simpl.
  - destruct (String.eqb_spec k k'); [contradiction | reflexivity].
  - destruct (String.eqb_spec k0 k) as [-> | Hk]; simpl.
    + destruct (String.eqb_spec k k'); [contradiction | reflexivity].
    + destruct (String.eqb k0 k'); [reflexivity | exact IH].
Qed.

Lemma dict_keys_set_present d k v old :
  dict_get d k = Some old -> dict_keys (dict_set d k v) = dict_keys d.
Proof.
  induction d as [| [k0 v0] d IH]; simpl; [discriminate |].
  destruct (String.eqb k0 k); simpl; intro H.
  - reflexivity.
  - f_equal. now apply IH.
Qed.

Lemma dict_get_absent d k : ~ In k (dict_keys d) -> dict_get d k = None.
Proof.
  induction d as [| [k0 v0] d IH]; simpl; [reflexivity |].
  intro H. destruct (String.eqb_spec k0 k) as [-> | Hk].
  - exfalso. apply H. now left.
  - apply IH. intro Hin. apply H. now right.
Qed.

(** [d.update] with keyword arguments: a key of [kw] takes the value [kw]
    gives it, any other key keeps the value it had *)
Lemma dict_get_update kw : forall d k,
  NoDup (dict_keys kw) ->
  dict_get (dict_update d kw) k
  = match dict_get kw k with
    | Some v => Some v
    | None => dict_get d k
    end.
Proof.
  unfold dict_update.
  induction kw as [| [k0 v0] kw IH]; intros d k Hnd; simpl; [reflexivity |].
  inversion Hnd as [| ? ? Hnotin Hnd']; subst.
  rewrite IH by exact Hnd'.
  destruct (String.eqb_spec k0 k) as [-> | Hk].
  - rewrite (dict_get_absent kw k Hnotin). apply dict_get_set_same.
  - destruct (dict_get kw k); [reflexivity |].
    now apply dict_get_set_other.
Qed.

(** ** File system *)

Lemma fs_lookup_remove_same fs p : fs_lookup (fs_remove fs p) p = None.
Proof.
  induction fs as [| [q c] fs IH]; simpl; [reflexivity |].
  destruct (String.eqb q p) eqn:Hq; simpl; [exact IH |].
  rewrite Hq. exact IH.
Qed.

Lemma fs_lookup_remove_other fs p q :
  p <> q -> fs_lookup (fs_remove fs p) q = fs_lookup fs q.
Proof.
  intro Hne. induction fs as [| [r c] fs IH]; simpl; [reflexivity |].
  destruct (String.eqb_spec r p) as [-> | Hr]; simpl.
  - destruct (String.eqb_spec p q); [contradiction | exact IH].
  - destruct (String.eqb r q); [reflexivity | exact IH].
Qed.

Lemma fs_lookup_write fs p c q :
  fs_lookup (fs_write fs p c) q
  = if String.eqb p q then Some c else fs_lookup fs q.
Proof.
  unfold fs_write. simpl.
  destruct (String.eqb_spec p q); [reflexivity |].
  now apply fs_lookup_remove_other.
Qed.

(** ** Error paths and side effects of a run *)

Section RunEffects.
Context {E : External}.

(** X1.  Without the input file the run ends in [FileNotFoundError] for
    "../tests/reference_data/dft-smiles_500.xyz"; by then [data] is bound to
    the literal of lines 41-51, with an empty [rep_info], nothing has been
    printed and no file has changed. *)
Theorem missing_input_raises_FileNotFoundError s :
  fs_lookup (files s) fn = None ->
  exists s',
    dump_reference_json s
    = (Raise (FileNotFoundError "../tests/reference_data/dft-smiles_500.xyz"), s')
    /\ var_data s' = Some data_literal
    /\ stdout s' = stdout s
    /\ files s' = files s.
Proof.
  intro H. rewrite dump_reference_json_unfold, generate_unfold, H.
  eexists. split; [reflexivity |]. repeat split; reflexivity.
Qed.

(** X2.  An exception raised by [ase.io.read] on an existing file leaves the
    routine unchanged, with nothing printed, no file changed and [rep_info]
    still empty. *)
Theorem reader_exception_propagates s c e :
  fs_lookup (files s) fn = Some c ->
  ase_read c "0:5" = Raise e ->
  exists s',
    dump_reference_json s = (Raise e, s')
    /\ var_data s' = Some data_literal
    /\ stdout s' = stdout s
    /\ files s' = files s.
Proof.
  intros Hf Hr. rewrite dump_reference_json_unfold, generate_unfold, Hf.
  change frame_slice with "0:5". rewrite Hr.
  eexists. split; [reflexivity |]. repeat split; reflexivity.
Qed.

(** X4.  However it ends, a run has put "../build/" and then "../tests/" at
    the front of [sys.path]; started as a script with the flag, the process
    ends with "../build/" in it twice (lines 3 and 23). *)
Theorem run_extends_sys_path s :
  sys_path (snd (dump_reference_json s)) = "../tests/" :: "../build/" :: sys_path s
  /\ sys_path (snd (script ["-json_dump"] s))
     = "../tests/" :: "../build/" :: "../build/" :: sys_path s.
Proof.
  assert (forall t, sys_path (snd (dump_reference_json t))
                    = "../tests/" :: "../build/" :: sys_path t) as H.
  { intro t. rewrite dump_reference_json_unfold, generate_unfold.
    destruct (fs_lookup (files t) fn) as [c |]; [| reflexivity].
    destruct (ase_read c frame_slice); reflexivity. }
  split; [apply H |].
  unfold script. cbv zeta. cbn [snd].
  unfold bind, lift, sys_path_insert0. rewrite parse_args_flag.
  unfold main. cbn [py_eq_bool Bool.eqb]. rewrite H. reflexivity.
Qed.

(** X3.  The only library call of a run is the one [read] of frames "0:5" of
    the input file: no descriptor or kernel is built and the serializer is
    not called, in any state and with any library. *)
Theorem run_only_reads s :
  calls (snd (dump_reference_json s))
  = (calls s ++ [CallRead "../tests/reference_data/dft-smiles_500.xyz" "0:5"])%list.
Proof.
  rewrite dump_reference_json_unfold, generate_unfold.
  destruct (fs_lookup (files s) fn) as [c |]; [| reflexivity].
  destruct (ase_read c frame_slice); reflexivity.
Qed.

(** X5.  Started with the flag, the process exits with status 1, the status
    of an uncaught exception, unless the reader itself raised [SystemExit]. *)
Theorem flagged_script_exits_1 s :
  (forall c code, fs_lookup (files s) fn = Some c ->
                  ase_read c "0:5" <> Raise (SystemExit code)) ->
  fst (script ["-json_dump"] s) = 1.
Proof.
  intro H. unfold script. cbv zeta. cbn [fst].
  unfold bind, lift, sys_path_insert0. rewrite parse_args_flag.
  unfold main. cbn [py_eq_bool Bool.eqb].
  rewrite dump_reference_json_unfold, generate_unfold. project.
  destruct (fs_lookup _ fn) as [c |] eqn:Hf; [| reflexivity].
  specialize (H c). change frame_slice with "0:5".
  destruct (ase_read c "0:5") as [fr | e] eqn:Hr; [reflexivity |].
  destruct e; try reflexivity.
  exfalso. exact (H code eq_refl eq_refl).
Qed.

(** ** Line 56 *)

(** X7.  [data['rep_info'].append(x)] changes [rep_info] only: the keys of
    [data] and their order stay, every other entry keeps its value, and [x]
    is the new last element of [rep_info]. *)
Theorem data_rep_info_append_changes_only_rep_info x s d l :
  var_data s = Some (PyDict d) ->
  dict_get d "rep_info" = Some (PyList l) ->
  exists s' d',
    data_rep_info_append x s = (Ok tt, s')
    /\ var_data s' = Some (PyDict d')
    /\ dict_keys d' = dict_keys d
    /\ dict_get d' "rep_info" = Some (PyList (l ++ [x]))
    /\ (forall k, k <> "rep_info" -> dict_get d' k = dict_get d k)
    /\ files s' = files s /\ stdout s' = stdout s /\ calls s' = calls s.
Proof.
  intros Hd Hr. rewrite (data_rep_info_append_spec x s d l Hd Hr).
  eexists. eexists. split; [reflexivity |]. split; [reflexivity |].
  split; [eapply dict_keys_set_present; exact Hr |].
  split; [apply dict_get_set_same |].
  split; [| repeat split; reflexivity].
  intros k Hk. apply dict_get_set_other. congruence.
Qed.

(** ** Lines 89-90 *)

(** X12.  When [data] is bound and the serializer accepts it, [serialize]
    returns normally, the output file holds exactly the serializer's bytes,
    whatever was there before, and no other path is affected. *)
Theorem serialize_overwrites_output_only s v bytes :
  var_data s = Some v ->
  ubjson_dump v = Ok bytes ->
  exists s',
    serialize s = (Ok tt, s')
    /\ fs_lookup (files s') output_path = Some bytes
    /\ (forall p, p <> output_path -> fs_lookup (files s') p = fs_lookup (files s) p)
    /\ var_data s' = var_data s.
Proof.
  intros Hv Hb. unfold serialize, bind, write_file, load_data, log.
  project. rewrite Hv. project. rewrite Hb.
  eexists. split; [reflexivity |]. project.
  split; [rewrite fs_lookup_write, String.eqb_refl; reflexivity |].
  split; [| reflexivity].
  intros p Hp. rewrite !fs_lookup_write.
  destruct (String.eqb_spec output_path p) as [Heq | _]; [congruence | reflexivity].
Qed.

(** X13.  Once line 89 has opened the file, a failure leaves a file behind:
    if [serialize] raises, because [data] is unbound or because the
    serializer rejects it, the output path exists afterwards, even when it
    did not before. *)
Theorem serialize_failure_leaves_a_file s e s' :
  serialize s = (Raise e, s') ->
  fs_lookup (files s') output_path <> None.
Proof.
  unfold serialize, bind, write_file, load_data, log, raise. project.
  destruct (var_data s) as [v |]; project.
  - destruct (ubjson_dump v) as [bytes | e0]; intro H; inversion H; subst; project;
      rewrite fs_lookup_write, String.eqb_refl; discriminate.
  - intro H; inversion H; subst; project.
    rewrite fs_lookup_write, String.eqb_refl. discriminate.
Qed.

End RunEffects.

(** ** Lines 64-82: the library calls of one combination *)

Section CombinationCalls.
Context {E : External}.

Ltac enter_combination Hma :=
  unfold effective_max_angular in *; open_combination;
  match goal with
  | |- context [py_eq_str "RadialSpectrum" ?st] =>
      destruct (py_eq_str "RadialSpectrum" st); project; try rewrite Hma; project
  end.

(** X8.  The descriptor is requested with ten keyword arguments, in the order
    of lines 67-76: the loop values for the cutoff, the radial and angular
    limits, the Gaussian width and the kind, and the fixed settings (smooth
    width 0.5, constant sigma, cosine cutoff, normalized, GTO basis). *)
Theorem descriptor_hypers_settings frames c kn tt kw st gs mr s ma :
  var_max_angular s = Some ma ->
  exists h rest,
    calls (snd (combination frames c kn tt kw st gs mr s))
    = (calls s ++ CallSphericalInvariant h :: rest)%list
    /\ h = [("interaction_cutoff", c);
            ("cutoff_smooth_width", PyFloat 1 (-1));
            ("max_radial", mr);
            ("max_angular", effective_max_angular st ma);
            ("gaussian_sigma_type", PyStr "Constant");
            ("gaussian_sigma_constant", gs);
            ("soap_type", st);
            ("cutoff_function_type", PyStr "Cosine");
            ("normalize", PyBool true);
            ("radial_basis", PyStr "GTO")].
Proof.
  intro Hma. eexists. 
  assert (exists rest,
    calls (snd (combination frames c kn tt kw st gs mr s))
    = (calls s ++ CallSphericalInvariant
                    (hypers_of c mr (effective_max_angular st ma) gs st) :: rest)%list)
    as [rest Hrest].
  { enter_combination Hma; crack; first_call. }
  exists rest. split; [exact Hrest | reflexivity].
Qed.

(** X9.  When the descriptor constructor rejects the hyperparameters, its
    exception leaves the body as it is: no further library call is made and
    [data] and the files are unchanged. *)
Theorem descriptor_rejection_propagates frames c kn tt kw st gs mr s ma e :
  var_max_angular s = Some ma ->
  SphericalInvariant (hypers_of c mr (effective_max_angular st ma) gs st) = Raise e ->
  exists s',
    combination frames c kn tt kw st gs mr s = (Raise e, s')
    /\ calls s'
       = (calls s ++ [CallSphericalInvariant
                        (hypers_of c mr (effective_max_angular st ma) gs st)])%list
    /\ var_data s' = var_data s
    /\ files s' = files s.
Proof.
  intros Hma Hsi.
  enter_combination Hma; rewrite Hsi; eexists; repeat split; reflexivity.
Qed.

(** X10.  When descriptor and features are computed and [kwargs] is a
    dictionary, the kernel constructor is the third library call, and its
    keyword arguments are [name] and [target_type] updated with [kwargs]:
    a key of [kwargs] has the value [kwargs] gives it (also for [name] and
    [target_type]), any other key the value of the loop variable. *)
Theorem kernel_receives_name_target_and_kwargs
    frames c kn tt kwd st gs mr s ma soap feats :
  var_max_angular s = Some ma ->
  SphericalInvariant (hypers_of c mr (effective_max_angular st ma) gs st) = Ok soap ->
  soap_transform soap frames = Ok feats ->
  NoDup (dict_keys kwd) ->
  exists hk rest,
    calls (snd (combination frames c kn tt (PyDict kwd) st gs mr s))
    = (calls s
       ++ CallSphericalInvariant (hypers_of c mr (effective_max_angular st ma) gs st)
       :: CallTransform :: CallKernel hk :: rest)%list
    /\ forall k,
         dict_get hk k
         = match dict_get kwd k with
           | Some v => Some v
           | None => dict_get [("name", kn); ("target_type", tt)] k
           end.
Proof.
  intros Hma Hsi Htr Hnd.
  exists (dict_update [("name", kn); ("target_type", tt)] kwd).
  assert (exists rest,
    calls (snd (combination frames c kn tt (PyDict kwd) st gs mr s))
    = (calls s
       ++ CallSphericalInvariant (hypers_of c mr (effective_max_angular st ma) gs st)
       :: CallTransform
       :: CallKernel (dict_update [("name", kn); ("target_type", tt)] kwd) :: rest)%list)
    as [rest Hrest].
  { enter_combination Hma; rewrite Hsi; project; rewrite Htr; project;
      crack; first_call. }
  exists rest. split; [exact Hrest |].
  intro k. now apply dict_get_update.
Qed.

(** X11.  When [kwargs] is not a dictionary, unpacking it raises [TypeError]
    after the descriptor and the features have been computed and before any
    kernel is built. *)
Theorem non_mapping_kwargs_raise_TypeError
    frames c kn tt kw st gs mr s ma soap feats :
  var_max_angular s = Some ma ->
  SphericalInvariant (hypers_of c mr (effective_max_angular st ma) gs st) = Ok soap ->
  soap_transform soap frames = Ok feats ->
  (forall d, kw <> PyDict d) ->
  exists s',
    combination frames c kn tt kw st gs mr s
    = (Raise (TypeError "argument after ** must be a mapping"), s')
    /\ calls s'
       = (calls s
          ++ [CallSphericalInvariant (hypers_of c mr (effective_max_angular st ma) gs st);
              CallTransform])%list
    /\ var_data s' = var_data s.
Proof.
  intros Hma Hsi Htr Hkw.
  enter_combination Hma; rewrite Hsi; project; rewrite Htr; project;
    (destruct kw; try (exfalso; eapply Hkw; reflexivity));
    eexists; (split; [reflexivity |]); project; rewrite <- app_assoc;
    split; reflexivity.
Qed.

End CombinationCalls.

(** * [tests/python_binding_tests.py] *)

Import SimpleCheck.

(** X14.  After [setUp] the test method returns normally, whatever attributes
    the instance had, [truth] included; [setUp] touches no other attribute. *)
Theorem setUp_then_test_passes self :
  test_simple_example (setUp self) = None
  /\ run_test self = Pass
  /\ forall k, k <> "truth" -> dict_get (setUp self) k = dict_get self k.
Proof.
  assert (test_simple_example (setUp self) = None) as H.
  { unfold test_simple_example, getattr, setUp.
    rewrite dict_get_set_same. reflexivity. }
  split; [exact H |]. split.
  - unfold run_test. rewrite H. reflexivity.
  - intros k Hk. unfold setUp. apply dict_get_set_other. congruence.
Qed.

(** X15.  Called on an instance whose [truth] is [v], the test method passes
    exactly when [v] is truthy, and otherwise counts as a failure, not as an
    error. *)
Theorem test_passes_iff_truth_truthy self v :
  dict_get self "truth" = Some v ->
  (test_simple_example self = None <-> py_truthy v = true)
  /\ (py_truthy v = false -> verdict_of (test_simple_example self) = Fail).
Proof.
  intro H. unfold test_simple_example, getattr, assertTrue. rewrite H.
  destruct (py_truthy v); split; try split; try reflexivity; try discriminate.
Qed.

(** X16.  [SimpleCheck] never makes the module fail: the exit status is 0
    exactly when every test of the imported test case passed, and 1
    otherwise. *)
Theorem unittest_main_status imported :
  (unittest_main imported = 0 <-> Forall (fun v => v = Pass) imported)
  /\ (unittest_main imported = 0 \/ unittest_main imported = 1).
Proof.
  unfold unittest_main. cbn [forallb]. 
  change (run_test []) with Pass. cbn [is_pass andb].
  split.
  - split.
    + intro H. apply Forall_forall. intros v Hin.
      destruct (forallb is_pass imported) eqn:Hall; [| discriminate].
      rewrite forallb_forall in Hall. specialize (Hall v Hin).
      destruct v; simpl in Hall; congruence.
    + intro H. rewrite Forall_forall in H.
      assert (forallb is_pass imported = true) as ->; [| reflexivity].
      apply forallb_forall. intros v Hin. rewrite (H v Hin). reflexivity.
  - destruct (forallb is_pass imported); [left | right]; reflexivity.
Qed.

(** * The further properties on concrete states *)

Lemma missing_input_raises_FileNotFoundError_witness :
  fs_lookup (files empty_state) fn = None
  /\ exists s',
       dump_reference_json (E := toy_external) empty_state
       = (Raise (FileNotFoundError "../tests/reference_data/dft-smiles_500.xyz"), s')
       /\ var_data s' = Some data_literal
       /\ stdout s' = stdout empty_state
       /\ files s' = files empty_state.
Proof.
  split; [reflexivity |].
  apply (missing_input_raises_FileNotFoundError (E := toy_external) empty_state).
  reflexivity.
Defined.

Lemma reader_exception_propagates_witness :
  fs_lookup (files state_with_short_input) fn = Some [1; 2; 3]
  /\ ase_read (External := strict_external) [1; 2; 3] "0:5"
     = Raise (LibraryError "fewer than 5 frames")
  /\ exists s',
       dump_reference_json (E := strict_external) state_with_short_input
       = (Raise (LibraryError "fewer than 5 frames"), s')
       /\ var_data s' = Some data_literal
       /\ stdout s' = stdout state_with_short_input
       /\ files s' = files state_with_short_input.
Proof.
  split; [reflexivity |]. split; [reflexivity |].
  apply (reader_exception_propagates (E := strict_external)
           state_with_short_input [1; 2; 3]); reflexivity.
Defined.

Lemma flagged_script_exits_1_witness :
  fst (script (E := toy_external) ["-json_dump"] state_with_input) = 1.
Proof.
  apply (flagged_script_exits_1 (E := toy_external) state_with_input).
  intros c code _. discriminate.
Defined.

Lemma data_rep_info_append_changes_only_rep_info_witness :
  var_data (state_at_read state_with_input) = Some data_literal
  /\ exists s' d',
       data_rep_info_append (PyList []) (state_at_read state_with_input) = (Ok tt, s')
       /\ var_data s' = Some (PyDict d')
       /\ dict_get d' "rep_info" = Some (PyList [PyList []])
       /\ dict_get d' "filename" = Some (PyStr fn_to_write).
Proof.
  split; [reflexivity |].
  destruct (data_rep_info_append_changes_only_rep_info (PyList [])
              (state_at_read state_with_input) _ [] eq_refl eq_refl)
    as [s' [d' [H1 [H2 [_ [H4 [H5 _]]]]]]].
  exists s', d'. split; [exact H1 |]. split; [exact H2 |]. split; [exact H4 |].
  rewrite H5; [reflexivity | discriminate].
Defined.

Lemma serialize_overwrites_output_only_witness :
  fs_lookup (files state_before_serialize) output_path = Some [9; 9; 9]
  /\ exists s',
       serialize (E := toy_external) state_before_serialize = (Ok tt, s')
       /\ fs_lookup (files s') output_path = Some [123; 125]
       /\ fs_lookup (files s') fn = Some [1; 2; 3; 4; 5].
Proof.
  split; [reflexivity |].
  destruct (serialize_overwrites_output_only (E := toy_external)
              state_before_serialize data_at_first_cutoff [123; 125] eq_refl eq_refl)
    as [s' [H1 [H2 [H3 _]]]].
  exists s'. split; [exact H1 |]. split; [exact H2 |].
  rewrite H3; [reflexivity | discriminate].
Defined.

Lemma serialize_failure_leaves_a_file_witness :
  fs_lookup (files state_with_bad_data) output_path = None
  /\ fst (serialize (E := strict_external) state_with_bad_data)
     = Raise (TypeError "cannot encode")
  /\ fs_lookup (files (snd (serialize (E := strict_external) state_with_bad_data)))
               output_path <> None.
Proof.
  split; [reflexivity |]. split; [reflexivity |].
  apply (serialize_failure_leaves_a_file (E := strict_external) state_with_bad_data
           (TypeError "cannot encode")).
  reflexivity.
Defined.

Lemma descriptor_hypers_settings_witness :
  exists h rest,
    calls (snd (combination (E := toy_external) 5%nat (PyFloat 7 (-1)) (PyStr "Cosine")
                  (PyStr "atom") (PyDict [("zeta", PyInt 4)]) (PyStr "PowerSpectrum")
                  (PyFloat 1 (-1)) (PyInt 6) state_in_loop))
    = (calls state_in_loop ++ CallSphericalInvariant h :: rest)%list
    /\ dict_get h "max_angular" = Some (PyInt 6)
    /\ dict_get h "normalize" = Some (PyBool true).
Proof.
  destruct (descriptor_hypers_settings (E := toy_external) 5%nat (PyFloat 7 (-1))
              (PyStr "Cosine") (PyStr "atom") (PyDict [("zeta", PyInt 4)])
              (PyStr "PowerSpectrum") (PyFloat 1 (-1)) (PyInt 6) state_in_loop
              (PyInt 6) eq_refl)
    as [h [rest [H1 H2]]].
  exists h, rest. split; [exact H1 |]. rewrite H2. split; reflexivity.
Defined.

Lemma descriptor_rejection_propagates_witness :
  exists s',
    combination (E := strict_external) 5%nat (PyFloat 7 (-1)) (PyStr "Cosine")
      (PyStr "structure") (PyDict [("zeta", PyInt 1)]) (PyStr "PowerSpectrum")
      (PyFloat 1 (-1)) (PyInt 0) state_in_loop
    = (Raise (LibraryError "max_radial must be positive"), s')
    /\ var_data s' = var_data state_in_loop.
Proof.
  destruct (descriptor_rejection_propagates (E := strict_external) 5%nat
              (PyFloat 7 (-1)) (PyStr "Cosine") (PyStr "structure")
              (PyDict [("zeta", PyInt 1)]) (PyStr "PowerSpectrum") (PyFloat 1 (-1))
              (PyInt 0) state_in_loop (PyInt 6)
              (LibraryError "max_radial must be positive") eq_refl eq_refl)
    as [s' [H1 [_ [H3 _]]]].
  exists s'. split; [exact H1 | exact H3].
Defined.

Lemma kernel_receives_name_target_and_kwargs_witness :
  exists hk rest,
    calls (snd (combination (E := toy_external) 5%nat (PyFloat 7 (-1)) (PyStr "Cosine")
                  (PyStr "atom") (PyDict [("zeta", PyInt 2)]) (PyStr "RadialSpectrum")
                  (PyFloat 1 (-1)) (PyInt 6) state_in_loop))
    = (calls state_in_loop
       ++ CallSphericalInvariant
            (hypers_of (PyFloat 7 (-1)) (PyInt 6) (PyInt 0) (PyFloat 1 (-1))
                       (PyStr "RadialSpectrum"))
       :: CallTransform :: CallKernel hk :: rest)%list
    /\ dict_get hk "name" = Some (PyStr "Cosine")
    /\ dict_get hk "target_type" = Some (PyStr "atom")
    /\ dict_get hk "zeta" = Some (PyInt 2).
Proof.
  assert (NoDup (dict_keys [("zeta", PyInt 2)])) as Hnd.
  { constructor; [intros [] | constructor]. }
  destruct (kernel_receives_name_target_and_kwargs (E := toy_external) 5%nat
              (PyFloat 7 (-1)) (PyStr "Cosine") (PyStr "atom") [("zeta", PyInt 2)]
              (PyStr "RadialSpectrum") (PyFloat 1 (-1)) (PyInt 6) state_in_loop
              (PyInt 6) _ 5%nat eq_refl eq_refl eq_refl Hnd)
    as [hk [rest [H1 H2]]].
  exists hk, rest. split; [exact H1 |].
  rewrite !H2. repeat split; reflexivity.
Defined.

Lemma non_mapping_kwargs_raise_TypeError_witness :
  exists s',
    combination (E := toy_external) 5%nat (PyFloat 7 (-1)) (PyStr "Cosine")
      (PyStr "atom") (PyInt 1) (PyStr "PowerSpectrum") (PyFloat 1 (-1)) (PyInt 6)
      state_in_loop
    = (Raise (TypeError "argument after ** must be a mapping"), s')
    /\ var_data s' = var_data state_in_loop.
Proof.
  destruct (non_mapping_kwargs_raise_TypeError (E := toy_external) 5%nat
              (PyFloat 7 (-1)) (PyStr "Cosine") (PyStr "atom") (PyInt 1)
              (PyStr "PowerSpectrum") (PyFloat 1 (-1)) (PyInt 6) state_in_loop
              (PyInt 6) _ 5%nat eq_refl eq_refl eq_refl
              (fun d H => eq_ind (PyInt 1)
                            (fun v => match v with PyInt _ => True | _ => False end)
                            I (PyDict d) H))
    as [s' [H1 [_ H3]]].
  exists s'. split; [exact H1 | exact H3].
Defined.

Lemma test_passes_iff_truth_truthy_witness :
  dict_get [("truth", PyInt 0)] "truth" = Some (PyInt 0)
  /\ py_truthy (PyInt 0) = false
  /\ verdict_of (test_simple_example [("truth", PyInt 0)]) = Fail.
Proof.
  split; [reflexivity |]. split; [reflexivity |].
  apply (proj2 (test_passes_iff_truth_truthy [("truth", PyInt 0)] (PyInt 0) eq_refl)).
  reflexivity.
Defined.
